(** * load_bulk_data.py: the directory walker of prisma/load_bulk_data.py

    The script walks the tree below [data_path]: it collects the stems of
    the root-level directories other than "Energy Calibration", then, for
    each of them, looks for the first directory-typed entry (the "edge"),
    lists it and prints one line per entry whose suffix is ".txt".

    The embedding is shallow.  Python strings are [string]s, the part of
    the file system below [data_path] is a tree of named nodes, a
    [pathlib.Path] is the list of the components below [data_path], and the
    script runs in a small monad that threads the world (file system and
    standard output) and stops at the first uncaught exception, keeping
    what was printed before it. *)

From Stdlib Require Import String Ascii List ZArith Lia Bool Arith.
Import ListNotations.
Local Open Scope string_scope.

(** ** Python [str] operations used by the script *)

Module PyStr.

(** [s[n:]] for an already normalised index [n]. *)
Fixpoint drop (n : nat) (s : string) : string :=
  match n, s with
  | O, _ => s
  | S _, EmptyString => EmptyString
  | S k, String _ s' => drop k s'
  end.

(** [s[:n]] for an already normalised index [n]. *)
Fixpoint take (n : nat) (s : string) : string :=
  match n, s with
  | O, _ => EmptyString
  | S _, EmptyString => EmptyString
  | S k, String c s' => String c (take k s')
  end.

(** Python's normalisation of a slice bound: a negative bound counts
    from the end, and the result is clamped to [0, len]. *)
Definition norm_index (len : nat) (i : Z) : nat :=
  if (i <? 0)%Z then Z.to_nat (Z.max 0 (Z.of_nat len + i))
  else Nat.min (Z.to_nat i) len.

(** [s[i:]] *)
Definition slice_from (i : Z) (s : string) : string :=
  drop (norm_index (String.length s) i) s.

(** [s[:i]] *)
Definition slice_to (i : Z) (s : string) : string :=
  take (norm_index (String.length s) i) s.

(** [s.startswith(p)] *)
Fixpoint startswith (p s : string) : bool :=
  match p, s with
  | EmptyString, _ => true
  | String _ _, EmptyString => false
  | String a p', String b s' => Ascii.eqb a b && startswith p' s'
  end.

(** [s.rfind(sub)], scanning from offset [i]: the highest index at which
    [sub] occurs, [-1] when there is none. *)
Fixpoint rfind_from (sub s : string) (i : Z) : Z :=
  match s with
  | EmptyString => if startswith sub s then i else (-1)%Z
  | String _ s' =>
      let r := rfind_from sub s' (i + 1)%Z in
      if (0 <=? r)%Z then r
      else if startswith sub s then i else (-1)%Z
  end.

Definition rfind (sub s : string) : Z := rfind_from sub s 0%Z.

(** [s.split(sep)] for a non-empty [sep]: scan left to right, cutting at
    every non-overlapping occurrence.  [skip] counts the characters of
    a separator just matched that are still to be passed over, [cur] is
    the segment being built. *)
Fixpoint split_go (sep : string) (skip : nat) (cur s : string) : list string :=
  match s with
  | EmptyString => [cur]
  | String c s' =>
      match skip with
      | S k => split_go sep k cur s'
      | O =>
          if startswith sep s
          then cur :: split_go sep (String.length sep - 1) EmptyString s'
          else split_go sep 0 (cur ++ String c EmptyString) s'
      end
  end.

Definition split (sep s : string) : list string := split_go sep 0 EmptyString s.

(** The ASCII characters: the code points below 128. *)
Definition is_ascii (c : ascii) : bool := (nat_of_ascii c <? 128)%nat.

(** [c.upper()] on one character.  On an ASCII character this is Python's
    result: the letters a-z are shifted to A-Z and every other character is
    kept.  A character outside ASCII is kept too, which is not always what
    Python does (it maps e-acute to E-acute and sharp s to "SS"): what is
    stated about the value of an uppercased character is stated for ASCII
    characters, see [is_ascii]. *)
Definition upper_ascii (c : ascii) : ascii :=
  let n := nat_of_ascii c in
  if (97 <=? n)%nat && (n <=? 122)%nat then ascii_of_nat (n - 32) else c.

(** [s.upper()] *)
Fixpoint upper (s : string) : string :=
  match s with
  | EmptyString => EmptyString
  | String c s' => String (upper_ascii c) (upper s')
  end.

End PyStr.

(** ** Uncaught exceptions *)

Inductive fault : Type :=
| FileNotFoundError
| NotADirectoryError
| IndexError.

(** ** The file system below [data_path] *)

(** A node is a regular file or a directory; a directory lists its
    entries in the order in which the operating system yields them. *)
#[warnings="-register-all"]
Inductive node : Type :=
| File : node
| Dir : list (string * node) -> node.

(** A [Path] is the list of its components below [data_path]. *)
Definition path : Type := list string.

Definition data_path : path := [].

(** [p / s], and the child paths [iterdir] builds.  Appending the
    component is what pathlib does for an ordinary component, see
    [is_ordinary]; pathlib drops an empty or "." component and reads ".."
    as the parent directory.  The stem of an entry can be "." or ".." (as
    for "..txt" and "...txt"): what is stated about a stem that names no
    directory of the root is stated for an ordinary stem. *)
Definition joinpath (p : path) (s : string) : path := (p ++ [s])%list.

(** Whether [c] occurs in [s]. *)
Fixpoint occurs (c : ascii) (s : string) : bool :=
  match s with
  | EmptyString => false
  | String c' s' => Ascii.eqb c c' || occurs c s'
  end.

(** An ordinary path component: not empty, not "." or "..", and free of
    the separators "/" and "\". *)
Definition is_ordinary (s : string) : bool :=
  negb (String.eqb s "")
  && negb (String.eqb s ".")
  && negb (String.eqb s "..")
  && negb (occurs "/" s)
  && negb (occurs "\" s).

Fixpoint lookup (s : string) (es : list (string * node)) : option node :=
  match es with
  | [] => None
  | (s', n) :: es' => if String.eqb s s' then Some n else lookup s es'
  end.

Fixpoint resolve (n : node) (p : path) : option node :=
  match p with
  | [] => Some n
  | c :: p' =>
      match n with
      | File => None
      | Dir es =>
          match lookup c es with
          | Some n' => resolve n' p'
          | None => None
          end
      end
  end.

(** ** [pathlib] properties: [name], [suffix], [stem] *)

(** The last component of the hard-coded root. *)
Definition data_path_name : string := "1st Set_2022".

Definition name (p : path) : string := last p data_path_name.

(** [PurePath.suffix], as pathlib defines it up to Python 3.13: with
    [i = name.rfind('.')], the suffix is [name[i:]] when
    [0 < i < len(name) - 1] and empty otherwise. *)
Definition suffix_of (nm : string) : string :=
  let i := PyStr.rfind "." nm in
  if (0 <? i)%Z && (i <? Z.of_nat (String.length nm) - 1)%Z
  then PyStr.slice_from i nm
  else "".

(** [PurePath.stem]: [name[:i]] under the same test, else the name. *)
Definition stem_of (nm : string) : string :=
  let i := PyStr.rfind "." nm in
  if (0 <? i)%Z && (i <? Z.of_nat (String.length nm) - 1)%Z
  then PyStr.slice_to i nm
  else nm.

Definition suffix (p : path) : string := suffix_of (name p).
Definition stem (p : path) : string := stem_of (name p).

(** ** The monad of the script: world passing with uncaught exceptions *)

Record world : Type := mkWorld {
  fs : node;               (* the tree below [data_path] *)
  stdout : list string     (* the lines printed so far *)
}.

Definition M (A : Type) : Type := world -> world * (fault + A).

Definition ret {A} (a : A) : M A := fun w => (w, inr a).

Definition bind {A B} (m : M A) (k : A -> M B) : M B :=
  fun w =>
    match m w with
    | (w', inl e) => (w', inl e)
    | (w', inr a) => k a w'
    end.

Definition raise {A} (e : fault) : M A := fun w => (w, inl e).

Declare Scope py_scope.
Delimit Scope py_scope with py.
Notation "x <- m ;; k" := (bind m (fun x => k))
  (at level 61, m at next level, right associativity) : py_scope.
Notation "m ;;; k" := (bind m (fun _ => k))
  (at level 61, right associativity) : py_scope.
Local Open Scope py_scope.

(** [p.is_dir()]: false for a regular file and for a path that does not
    exist. *)
Definition is_dir (p : path) : M bool :=
  fun w =>
    match resolve (fs w) p with
    | Some (Dir _) => (w, inr true)
    | _ => (w, inr false)
    end.

(** [p.iterdir()]: the paths [p / entry] in the order of the listing. *)
Definition iterdir (p : path) : M (list path) :=
  fun w =>
    match resolve (fs w) p with
    | Some (Dir es) => (w, inr (map (fun e => joinpath p (fst e)) es))
    | Some File => (w, inl NotADirectoryError)
    | None => (w, inl FileNotFoundError)
    end.

(** [print(line)] *)
Definition print (line : string) : M unit :=
  fun w => (mkWorld (fs w) (stdout w ++ [line])%list, inr tt).

(** [s[0]] *)
Definition getitem0 (s : string) : M string :=
  match s with
  | EmptyString => raise IndexError
  | String c _ => ret (String c EmptyString)
  end.

(** [l[0]] on a list of strings. *)
Definition list_getitem0 (l : list string) : M string :=
  match l with
  | [] => raise IndexError
  | x :: _ => ret x
  end.

(** ** The script *)

(** Line 20: [file.stem.split("deg")[0][-2:]]. *)
Definition anlge_of (file : path) : M string :=
  seg <- list_getitem0 (PyStr.split "deg" (stem file)) ;;
  ret (PyStr.slice_from (-2) seg).

(** Lines 21-23: the f-string. *)
Definition message (molecule _edge anlge : string) : string :=
  "Loading data for " ++ molecule ++ " at the " ++ _edge ++ " at " ++ anlge ++ " degrees".

(** Lines 18-23: [for file in edge.iterdir(): ...]. *)
Fixpoint file_loop (molecule _edge : string) (files : list path) : M unit :=
  match files with
  | [] => ret tt
  | file :: rest =>
      (if String.eqb (suffix file) ".txt"
       then anlge <- anlge_of file ;;
            print (message molecule _edge anlge)
       else ret tt) ;;;
      file_loop molecule _edge rest
  end.

(** Line 17: [edge.stem[0].upper() + "-K"]. *)
Definition edge_label (edge : path) : M string :=
  c <- getitem0 (stem edge) ;;
  ret (PyStr.upper c ++ "-K").

(** Lines 15-24: [for edge in (data_path / molecule).iterdir(): ...]; the
    [break] sits in the body of [if edge.is_dir():], after the file loop. *)
Fixpoint edge_loop (molecule : string) (edges : list path) : M unit :=
  match edges with
  | [] => ret tt
  | edge :: rest =>
      d <- is_dir edge ;;
      if d
      then _edge <- edge_label edge ;;
           files <- iterdir edge ;;
           file_loop molecule _edge files
           (* break *)
      else edge_loop molecule rest
  end.

(** Lines 14-24: [for molecule in molecules: ...]. *)
Fixpoint molecule_loop (molecules : list string) : M unit :=
  match molecules with
  | [] => ret tt
  | molecule :: rest =>
      edges <- iterdir (joinpath data_path molecule) ;;
      edge_loop molecule edges ;;;
      molecule_loop rest
  end.

(** Lines 10-12: the list comprehension building [molecules]. *)
Fixpoint molecules_of (xs : list path) : M (list string) :=
  match xs with
  | [] => ret []
  | x :: xs' =>
      d <- is_dir x ;;
      rest <- molecules_of xs' ;;
      ret (if d && negb (String.eqb (name x) "Energy Calibration")
           then stem x :: rest else rest)
  end.

(** The whole module. *)
Definition script : M unit :=
  xs <- iterdir data_path ;;
  molecules <- molecules_of xs ;;
  molecule_loop molecules.

(** The lines a run prints on a tree, and how it ends. *)
Definition run (tree : node) : list string * (fault + unit) :=
  let (w, r) := script (mkWorld tree []) in (stdout w, r).

(** ** Pure readings of the loops, used to state what a run prints *)

(** The value line 20 computes from a stem. *)
Definition anlge_str (st : string) : string :=
  PyStr.slice_from (-2) (hd "" (PyStr.split "deg" st)).

(** The lines the file loop prints for a listing. *)
Definition file_lines (molecule _edge : string) (files : list path) : list string :=
  map (fun f => message molecule _edge (anlge_str (stem f)))
      (filter (fun f => String.eqb (suffix f) ".txt") files).

(** The same, on the entries of the listed directory. *)
Definition entry_lines (molecule _edge : string) (es : list (string * node)) : list string :=
  map (fun e => message molecule _edge (anlge_str (stem_of (fst e))))
      (filter (fun e => String.eqb (suffix_of (fst e)) ".txt") es).

Definition is_dir_node (n : node) : bool :=
  match n with Dir _ => true | File => false end.

(** What [p.is_dir()] answers on a tree. *)
Definition is_dir_b (t : node) (p : path) : bool :=
  match resolve t p with
  | Some n => is_dir_node n
  | None => false
  end.

(** The list the comprehension of lines 10-12 builds from a listing. *)
Definition molecule_names (t : node) (xs : list path) : list string :=
  map stem
      (filter (fun x => is_dir_b t x
                        && negb (String.eqb (name x) "Energy Calibration"))
              xs).

(** Lines 15-24 for one molecule. *)
Definition molecule_body (molecule : string) : M unit :=
  edges <- iterdir (joinpath data_path molecule) ;;
  edge_loop molecule edges.

(** A computation keeps the frame when it leaves the file system as it
    found it and only appends to what was printed. *)
Definition keeps_frame {A} (m : M A) : Prop :=
  forall w,
    fs (fst (m w)) = fs w
    /\ exists lines, stdout (fst (m w)) = (stdout w ++ lines)%list.

(** ** The words of the specification, for comparison *)

Module Spec.

(** Index of the first occurrence of [sub] in [s], counted from [i]. *)
Fixpoint find_from (sub s : string) (i : nat) : option nat :=
  match s with
  | EmptyString => if PyStr.startswith sub s then Some i else None
  | String _ s' =>
      if PyStr.startswith sub s then Some i else find_from sub s' (S i)
  end.

Definition find (sub s : string) : option nat := find_from sub s 0.

(** "the portion before the first occurrence" of [sep], the whole
    string when [sep] does not occur. *)
Definition before_first (sep s : string) : string :=
  match find sep s with
  | Some i => PyStr.take i s
  | None => s
  end.

(** "its last two characters": all of it when there are fewer. *)
Definition last_two (s : string) : string :=
  PyStr.drop (String.length s - 2) s.

(** The angle of a stem as the specification words it. *)
Definition angle (st : string) : string := last_two (before_first "deg" st).

(** "first character (uppercased) concatenated with the literal -K". *)
Definition edge_label (c : ascii) : string :=
  PyStr.upper (String c EmptyString) ++ "-K".

End Spec.

(** ** Example trees *)

Definition carbon_tree (m : string) : node :=
  Dir [ (m, Dir [ ("carbon", Dir [ ("45deg_scan.txt", File) ]) ]) ].

(** A molecule whose listing yields "boron" before "carbon". *)
Definition boron_first_tree : node :=
  Dir [ ("P3HT", Dir [ ("boron", Dir [ ("20deg.txt", File) ]);
                       ("carbon", Dir [ ("45deg_scan.txt", File) ]) ]) ].

(** File names without "deg", and with a one-character stem. *)
Definition odd_names_tree : node :=
  Dir [ ("P3HT", Dir [ ("carbon", Dir [ ("scan.txt", File);
                                        ("a.txt", File) ]) ]) ].

(** "Energy Calibration" next to a directory with the same stem. *)
Definition calibration_tree : node :=
  Dir [ ("Energy Calibration", Dir [ ("carbon", Dir [ ("45deg.txt", File) ]) ]);
        ("Energy Calibration.old", Dir []) ].

(** A directory named like a data file inside the edge directory, and the
    same tree with a regular file in its place. *)
Definition txt_dir_tree : node :=
  Dir [ ("P3HT", Dir [ ("carbon", Dir [ ("45deg.txt", Dir [ ("raw", File) ]) ]) ]) ].

Definition txt_file_tree : node :=
  Dir [ ("P3HT", Dir [ ("carbon", Dir [ ("45deg.txt", File) ]) ]) ].

(** ** Pure reading of a whole run *)

(** The first directory-typed entry of a listing, with its entries. *)
Fixpoint first_dir (es : list (string * node))
  : option (string * list (string * node)) :=
  match es with
  | [] => None
  | (nm, Dir files) :: _ => Some (nm, files)
  | (_, File) :: es' => first_dir es'
  end.

(** The lines printed for a molecule directory with the entries [kids]. *)
Definition molecule_lines (molecule : string) (kids : list (string * node))
  : list string :=
  match first_dir kids with
  | Some (String c _, files) => entry_lines molecule (Spec.edge_label c) files
  | _ => []
  end.

(** The test of the comprehension of lines 10-12 on a root-level entry. *)
Definition is_molecule_entry (e : string * node) : bool :=
  is_dir_node (snd e) && negb (String.eqb (fst e) "Energy Calibration").

(** The lines printed for a root-level entry. *)
Definition root_lines (e : string * node) : list string :=
  match snd e with
  | Dir kids => if is_molecule_entry e then molecule_lines (fst e) kids else []
  | File => []
  end.

Definition tree_lines (es : list (string * node)) : list string :=
  flat_map root_lines es.

(** A computation prints lines of the shape [P] when, on every tree, it
    leaves the tree as it is and appends the same lines of that shape, with
    the same outcome, to whatever was printed before. *)
Definition prints {A} (P : string -> Prop) (m : M A) : Prop :=
  forall t, exists lines r,
    Forall P lines
    /\ forall out, m (mkWorld t out) = (mkWorld t (out ++ lines), r).

(** Shapes of the lines of the file loop, of the edge loop and of the loop
    over the molecules. *)
Definition file_line (molecule _edge line : string) : Prop :=
  exists a, String.length a <= 2 /\ line = message molecule _edge a.

Definition edge_line (molecule line : string) : Prop :=
  exists c, file_line molecule (Spec.edge_label c) line.

Definition molecule_line (molecules : list string) (line : string) : Prop :=
  exists m, In m molecules /\ edge_line m line.

(** ** Strings *)

Lemma append_nil_r (s : string) : s ++ "" = s.
Proof. induction s as [|c s IH]; simpl; [reflexivity | now rewrite IH]. Qed.

Lemma append_assoc (a b c : string) : (a ++ b) ++ c = a ++ (b ++ c).
Proof. induction a as [|x a IH]; simpl; [reflexivity | now rewrite IH]. Qed.

Lemma startswith_nil_r (p : string) :
  p <> "" -> PyStr.startswith p "" = false.
Proof. destruct p; [congruence | reflexivity]. Qed.

Lemma find_from_shift (sub s : string) (i : nat) :
  Spec.find_from sub s (S i) = option_map S (Spec.find_from sub s i).
Proof.
  revert i. induction s as [|c s IH]; intros i; simpl.
  - now destruct (PyStr.startswith sub "").
  - destruct (PyStr.startswith sub (String c s)); [reflexivity | apply IH].
Qed.

Lemma before_first_nil (sep : string) :
  sep <> "" -> Spec.before_first sep "" = "".
Proof.
  intros H. unfold Spec.before_first, Spec.find. simpl.
  now rewrite (startswith_nil_r sep H).
Qed.

Lemma before_first_cons (sep : string) (c : ascii) (s : string) :
  Spec.before_first sep (String c s)
  = if PyStr.startswith sep (String c s) then ""
    else String c (Spec.before_first sep s).
Proof.
  unfold Spec.before_first, Spec.find. simpl.
  destruct (PyStr.startswith sep (String c s)); [reflexivity |].
  rewrite find_from_shift.
  destruct (Spec.find_from sep s 0); reflexivity.
Qed.

(** The head of the split is the accumulated segment followed by the part
    of the input before the first separator. *)
Lemma hd_split_go (sep : string) :
  sep <> "" ->
  forall s cur,
    hd "" (PyStr.split_go sep 0 cur s) = cur ++ Spec.before_first sep s.
Proof.
  intros Hsep. induction s as [|c s IH]; intros cur.
  - simpl. now rewrite (before_first_nil sep Hsep), append_nil_r.
  - rewrite before_first_cons.
    cbn [PyStr.split_go].
    destruct (PyStr.startswith sep (String c s)).
    + simpl. now rewrite append_nil_r.
    + rewrite IH, append_assoc. reflexivity.
Qed.

Lemma hd_split (sep s : string) :
  sep <> "" -> hd "" (PyStr.split sep s) = Spec.before_first sep s.
Proof. intros H. unfold PyStr.split. now rewrite hd_split_go. Qed.

Lemma split_go_cons (sep : string) (s : string) :
  forall k cur, exists x l, PyStr.split_go sep k cur s = x :: l.
Proof.
  induction s as [|c s IH]; intros k cur; simpl.
  - eauto.
  - destruct k; [| apply IH].
    destruct (PyStr.startswith sep (String c s)); [eauto | apply IH].
Qed.

Lemma slice_from_last_two (s : string) :
  PyStr.slice_from (-2) s = Spec.last_two s.
Proof.
  unfold PyStr.slice_from, Spec.last_two, PyStr.norm_index. simpl.
  f_equal. lia.
Qed.

Lemma anlge_str_spec (st : string) : anlge_str st = Spec.angle st.
Proof.
  unfold anlge_str, Spec.angle.
  rewrite hd_split by discriminate. apply slice_from_last_two.
Qed.

(** ** Paths *)

Lemma name_joinpath (p : path) (s : string) : name (joinpath p s) = s.
Proof. unfold name, joinpath. apply last_last. Qed.

Lemma stem_joinpath (p : path) (s : string) : stem (joinpath p s) = stem_of s.
Proof. unfold stem. now rewrite name_joinpath. Qed.

Lemma suffix_joinpath (p : path) (s : string) : suffix (joinpath p s) = suffix_of s.
Proof. unfold suffix. now rewrite name_joinpath. Qed.

(** A stem keeps the first character of a non-empty name. *)
Lemma stem_of_head (c : ascii) (r : string) :
  exists r', stem_of (String c r) = String c r'.
Proof.
  unfold stem_of.
  destruct ((0 <? PyStr.rfind "." (String c r))%Z
            && (PyStr.rfind "." (String c r)
                <? Z.of_nat (String.length (String c r)) - 1)%Z) eqn:E.
  - apply andb_true_iff in E as [E1 E2].
    apply Z.ltb_lt in E1. apply Z.ltb_lt in E2.
    unfold PyStr.slice_to, PyStr.norm_index.
    destruct (Z.ltb_spec (PyStr.rfind "." (String c r)) 0); [lia |].
    destruct (Nat.min (Z.to_nat (PyStr.rfind "." (String c r)))
                      (String.length (String c r))) eqn:Em.
    + simpl in Em. lia.
    + simpl. eauto.
  - eauto.
Qed.

Lemma resolve_joinpath (t : node) (p : path) (s : string) :
  resolve t (joinpath p s)
  = match resolve t p with
    | Some (Dir es) => lookup s es
    | _ => None
    end.
Proof.
  unfold joinpath. revert t. induction p as [|c p IH]; intros t; simpl.
  - destruct t as [|es]; [reflexivity |]. now destruct (lookup s es).
  - destruct t as [|es]; [reflexivity |].
    destruct (lookup c es); [apply IH | reflexivity].
Qed.

(** ** Runs of the primitive operations and of the inner loops *)

Lemma world_eta (w : world) : mkWorld (fs w) (stdout w) = w.
Proof. now destruct w. Qed.

Lemma is_dir_run (p : path) (w : world) :
  is_dir p w
  = (w, inr (match resolve (fs w) p with
             | Some n => is_dir_node n
             | None => false
             end)).
Proof.
  unfold is_dir. destruct (resolve (fs w) p) as [[|es]|]; reflexivity.
Qed.

Lemma iterdir_run (p : path) (w : world) (es : list (string * node)) :
  resolve (fs w) p = Some (Dir es) ->
  iterdir p w = (w, inr (map (fun e => joinpath p (fst e)) es)).
Proof. intros H. unfold iterdir. now rewrite H. Qed.

Lemma anlge_of_run (file : path) (w : world) :
  anlge_of file w = (w, inr (anlge_str (stem file))).
Proof.
  unfold anlge_of, anlge_str, PyStr.split, bind.
  destruct (split_go_cons "deg" (stem file) 0 "") as (x & l & E).
  rewrite E. reflexivity.
Qed.

Lemma file_loop_run (molecule _edge : string) (files : list path) (w : world) :
  file_loop molecule _edge files w
  = (mkWorld (fs w) (stdout w ++ file_lines molecule _edge files), inr tt).
Proof.
  revert w. induction files as [|f files IH]; intros w.
  - unfold file_lines. simpl. unfold ret. now rewrite app_nil_r, world_eta.
  - cbn [file_loop]. unfold bind at 1.
    unfold file_lines. cbn [filter].
    destruct (String.eqb (suffix f) ".txt").
    + unfold bind at 1. rewrite anlge_of_run. unfold print.
      rewrite IH. cbn [fs stdout map]. unfold file_lines.
      now rewrite <- app_assoc.
    + unfold ret at 1. apply IH.
Qed.

Lemma file_lines_joinpath (molecule _edge : string) (p : path)
      (es : list (string * node)) :
  file_lines molecule _edge (map (fun e => joinpath p (fst e)) es)
  = entry_lines molecule _edge es.
Proof.
  unfold file_lines, entry_lines.
  induction es as [|e es IH]; [reflexivity |].
  cbn [map filter]. rewrite suffix_joinpath.
  destruct (String.eqb (suffix_of (fst e)) ".txt"); [| exact IH].
  cbn [map]. rewrite stem_joinpath. f_equal. exact IH.
Qed.

Lemma file_lines_app (molecule _edge : string) (l1 l2 : list path) :
  file_lines molecule _edge (l1 ++ l2)
  = (file_lines molecule _edge l1 ++ file_lines molecule _edge l2)%list.
Proof. unfold file_lines. now rewrite filter_app, map_app. Qed.

Lemma entry_lines_app (molecule _edge : string) (l1 l2 : list (string * node)) :
  entry_lines molecule _edge (l1 ++ l2)
  = (entry_lines molecule _edge l1 ++ entry_lines molecule _edge l2)%list.
Proof. unfold entry_lines. now rewrite filter_app, map_app. Qed.

Lemma edge_label_run (edge : path) (w : world) (c : ascii) (r : string) :
  name edge = String c r ->
  edge_label edge w = (w, inr (Spec.edge_label c)).
Proof.
  intros H. unfold edge_label, stem, bind. rewrite H.
  destruct (stem_of_head c r) as (r' & E). rewrite E. reflexivity.
Qed.

(** Entries that are not directories are passed over by the edge loop. *)
Lemma edge_loop_skip (molecule : string) (pre rest : list path) (w : world) :
  Forall (fun p => is_dir p w = (w, inr false)) pre ->
  edge_loop molecule (pre ++ rest) w = edge_loop molecule rest w.
Proof.
  induction 1 as [|p pre Hp _ IH]; [reflexivity |].
  cbn [app edge_loop]. unfold bind at 1. rewrite Hp. exact IH.
Qed.

(** The body run for a directory-typed entry; nothing after it is
    looked at. *)
Lemma edge_loop_dir (molecule : string) (edge : path) (rest : list path)
      (w : world) :
  is_dir edge w = (w, inr true) ->
  edge_loop molecule (edge :: rest) w
  = (_edge <- edge_label edge ;;
     files <- iterdir edge ;;
     file_loop molecule _edge files) w.
Proof.
  intros H. cbn [edge_loop]. unfold bind at 1. now rewrite H.
Qed.

Lemma is_dir_of_resolve (p : path) (w : world) (es : list (string * node)) :
  resolve (fs w) p = Some (Dir es) -> is_dir p w = (w, inr true).
Proof. intros H. rewrite is_dir_run, H. reflexivity. Qed.

Lemma process_edge_run (molecule : string) (edge : path) (w : world)
      (es : list (string * node)) (c : ascii) (r : string) :
  resolve (fs w) edge = Some (Dir es) ->
  name edge = String c r ->
  (_edge <- edge_label edge ;;
   files <- iterdir edge ;;
   file_loop molecule _edge files) w
  = (mkWorld (fs w) (stdout w ++ entry_lines molecule (Spec.edge_label c) es),
     inr tt).
Proof.
  intros Hr Hn. unfold bind.
  rewrite (edge_label_run edge w c r Hn), (iterdir_run edge w es Hr).
  now rewrite file_loop_run, file_lines_joinpath.
Qed.

(** ** The edge loop *)

(** C1.  In the loop over the entries of a molecule directory, the entries
    yielded before the first directory are passed over, the first
    directory-typed entry is the one whose listing is printed, and whatever
    is yielded after it has no effect at all: the loop behaves as if that
    entry were the only one, and (for an entry with a non-empty name) it
    ends normally having printed exactly the lines of that entry's
    listing. *)
Theorem edge_loop_first_dir_only
        (molecule : string) (pre post : list path) (edge : path) (w : world)
        (es : list (string * node)) :
  Forall (fun p => is_dir p w = (w, inr false)) pre ->
  resolve (fs w) edge = Some (Dir es) ->
  edge_loop molecule (pre ++ edge :: post) w = edge_loop molecule [edge] w
  /\ forall c r,
      name edge = String c r ->
      edge_loop molecule (pre ++ edge :: post) w
      = (mkWorld (fs w)
                 (stdout w ++ entry_lines molecule (Spec.edge_label c) es),
         inr tt).
Proof.
  intros Hpre Hedge.
  pose proof (is_dir_of_resolve edge w es Hedge) as Hd.
  split.
  - rewrite (edge_loop_skip molecule pre _ w Hpre).
    now rewrite !edge_loop_dir.
  - intros c r Hn.
    rewrite (edge_loop_skip molecule pre _ w Hpre).
    rewrite (edge_loop_dir molecule edge post w Hd).
    now apply process_edge_run with (r := r).
Qed.

Lemma edge_loop_first_dir_only_witness :
  let tree := Dir [ ("P3HT", Dir [ ("notes.md", File);
                                   ("carbon", Dir [ ("45deg_scan.txt", File) ]);
                                   ("nitrogen", Dir [ ("20deg.txt", File) ]) ]) ] in
  let w := mkWorld tree [] in
  edge_loop "P3HT" [ ["P3HT"; "notes.md"]; ["P3HT"; "carbon"]; ["P3HT"; "nitrogen"] ] w
  = (mkWorld tree ["Loading data for P3HT at the C-K at 45 degrees"], inr tt).
Proof.
  intros tree w.
  refine (proj2 (edge_loop_first_dir_only
                   "P3HT" [ ["P3HT"; "notes.md"] ] [ ["P3HT"; "nitrogen"] ]
                   ["P3HT"; "carbon"] w [ ("45deg_scan.txt", File) ] _ _)
                "c"%char "arbon" _).
  - repeat constructor.
  - reflexivity.
  - reflexivity.
Defined.

(** C5.  For the processed edge subdirectory, whose name starts with the
    ASCII character [c], line 17 computes the label [c.upper() + "-K"], and
    every line printed for that subdirectory carries exactly this label.
    The first character is taken in ASCII, where [PyStr.upper] is Python's
    [str.upper]. *)
Theorem edge_label_is_upper_first_char
        (molecule : string) (pre post : list path) (edge : path) (w : world)
        (es : list (string * node)) (c : ascii) (r : string) :
  Forall (fun p => is_dir p w = (w, inr false)) pre ->
  resolve (fs w) edge = Some (Dir es) ->
  name edge = String c r ->
  PyStr.is_ascii c = true ->
  edge_label edge w = (w, inr (PyStr.upper (String c "") ++ "-K"))
  /\ exists lines,
      edge_loop molecule (pre ++ edge :: post) w
      = (mkWorld (fs w) (stdout w ++ lines), inr tt)
      /\ Forall (fun line =>
                   exists anlge,
                     line = message molecule
                                    (PyStr.upper (String c "") ++ "-K") anlge)
                lines.
Proof.
  intros Hpre Hedge Hn _. split.
  - exact (edge_label_run edge w c r Hn).
  - exists (entry_lines molecule (Spec.edge_label c) es). split.
    + rewrite (edge_loop_skip molecule pre _ w Hpre).
      rewrite (edge_loop_dir molecule edge post w
                             (is_dir_of_resolve edge w es Hedge)).
      now apply process_edge_run with (r := r).
    + unfold entry_lines. apply Forall_forall. intros line Hin.
      apply in_map_iff in Hin as (e & <- & _). eauto.
Qed.

Lemma edge_label_is_upper_first_char_witness :
  let tree := Dir [ ("P3HT", Dir [ ("carbon", Dir [ ("45deg_scan.txt", File) ]) ]) ] in
  edge_label ["P3HT"; "carbon"] (mkWorld tree []) = (mkWorld tree [], inr "C-K").
Proof.
  intros tree.
  refine (proj1 (edge_label_is_upper_first_char
                   "P3HT" [] [] ["P3HT"; "carbon"] (mkWorld tree [])
                   [ ("45deg_scan.txt", File) ] "c"%char "arbon" _ _ _ _)).
  - constructor.
  - reflexivity.
  - reflexivity.
  - reflexivity.
Defined.

(** ** The file loop *)

Lemma file_lines_cons_txt (molecule _edge : string) (file : path)
      (post : list path) :
  suffix file = ".txt" ->
  file_lines molecule _edge (file :: post)
  = message molecule _edge (anlge_str (stem file))
    :: file_lines molecule _edge post.
Proof.
  intros H. unfold file_lines. cbn [filter]. now rewrite H.
Qed.

Lemma file_lines_cons_other (molecule _edge : string) (file : path)
      (post : list path) :
  suffix file <> ".txt" ->
  file_lines molecule _edge (file :: post) = file_lines molecule _edge post.
Proof.
  intros H. unfold file_lines. cbn [filter].
  apply String.eqb_neq in H. now rewrite H.
Qed.

(** C4.  For an entry with suffix ".txt" the file loop prints, between
    what it prints for the entries before and after it, one line whose
    angle is the last two characters of the part of the stem before the
    first "deg" (of the whole stem when there is no "deg"). *)
Theorem angle_is_last_two_before_deg
        (molecule _edge : string) (pre post : list path) (file : path)
        (w : world) :
  suffix file = ".txt" ->
  file_loop molecule _edge (pre ++ file :: post) w
  = (file_loop molecule _edge pre ;;;
     print (message molecule _edge
                    (Spec.last_two (Spec.before_first "deg" (stem file)))) ;;;
     file_loop molecule _edge post) w.
Proof.
  intros Hs. unfold bind, print.
  rewrite !file_loop_run. cbn [fs stdout].
  rewrite file_lines_app, (file_lines_cons_txt _ _ _ _ Hs), anlge_str_spec.
  unfold Spec.angle. repeat rewrite <- app_assoc. reflexivity.
Qed.

Lemma angle_is_last_two_before_deg_witness :
  file_loop "P3HT" "C-K" [ ["P3HT"; "carbon"; "145deg_scan.txt"] ] (mkWorld File [])
  = (mkWorld File ["Loading data for P3HT at the C-K at 45 degrees"], inr tt).
Proof.
  exact (angle_is_last_two_before_deg
           "P3HT" "C-K" [] [] ["P3HT"; "carbon"; "145deg_scan.txt"]
           (mkWorld File []) eq_refl).
Defined.

(** C7.  The file loop prints one line for each entry whose suffix is
    ".txt", in the order of the listing, and nothing else: an entry with
    any other suffix, or with none, can be removed from the listing without
    changing the run. *)
Theorem only_txt_suffix_prints
        (molecule _edge : string) (files : list path) (w : world) :
  file_loop molecule _edge files w
  = (mkWorld (fs w)
             (stdout w
              ++ map (fun f => message molecule _edge (anlge_str (stem f)))
                     (filter (fun f => String.eqb (suffix f) ".txt") files)),
     inr tt)
  /\ forall pre file post,
      files = (pre ++ file :: post)%list ->
      suffix file <> ".txt" ->
      file_loop molecule _edge files w = file_loop molecule _edge (pre ++ post) w.
Proof.
  split.
  - apply file_loop_run.
  - intros pre file post -> Hs.
    rewrite !file_loop_run, !file_lines_app.
    now rewrite (file_lines_cons_other _ _ _ _ Hs).
Qed.

Lemma only_txt_suffix_prints_witness :
  file_loop "P3HT" "C-K"
            [ ["P3HT"; "carbon"; "30deg.txt"]; ["P3HT"; "carbon"; "55deg.csv"];
              ["P3HT"; "carbon"; "README"] ]
            (mkWorld File [])
  = file_loop "P3HT" "C-K"
              [ ["P3HT"; "carbon"; "30deg.txt"]; ["P3HT"; "carbon"; "README"] ]
              (mkWorld File []).
Proof.
  refine (proj2 (only_txt_suffix_prints "P3HT" "C-K" _ (mkWorld File []))
                [ ["P3HT"; "carbon"; "30deg.txt"] ]
                ["P3HT"; "carbon"; "55deg.csv"]
                [ ["P3HT"; "carbon"; "README"] ] eq_refl _).
  vm_compute. discriminate.
Defined.

(** C8.  For the entry "5deg.txt" the stem is "5deg", the split yields
    the one-character segment "5", its slice [-2:] is "5" again, and the
    line is printed with the angle "5"; nothing fails. *)
Theorem anlge_of_5deg (molecule _edge : string) (edge : path) (w : world) :
  PyStr.split "deg" (stem (joinpath edge "5deg.txt")) = ["5"; ""]
  /\ PyStr.slice_from (-2) "5" = "5"
  /\ anlge_of (joinpath edge "5deg.txt") w = (w, inr "5")
  /\ file_loop molecule _edge [joinpath edge "5deg.txt"] w
     = (mkWorld (fs w) (stdout w ++ [message molecule _edge "5"]), inr tt).
Proof.
  assert (Hst : stem (joinpath edge "5deg.txt") = "5deg")
    by (rewrite stem_joinpath; reflexivity).
  assert (Hsu : suffix (joinpath edge "5deg.txt") = ".txt")
    by (rewrite suffix_joinpath; reflexivity).
  repeat split.
  - now rewrite Hst.
  - now rewrite anlge_of_run, Hst.
  - rewrite file_loop_run, (file_lines_cons_txt _ _ _ _ Hsu), Hst.
    reflexivity.
Qed.

(** ** The frame: nothing but standard output changes *)

Create HintDb frame.

Lemma keeps_frame_ret {A} (a : A) : keeps_frame (ret a).
Proof. intros w. split; [reflexivity | exists []; now rewrite app_nil_r]. Qed.

Lemma keeps_frame_raise {A} (e : fault) : keeps_frame (@raise A e).
Proof. intros w. split; [reflexivity | exists []; now rewrite app_nil_r]. Qed.

Lemma keeps_frame_bind {A B} (m : M A) (k : A -> M B) :
  keeps_frame m -> (forall a, keeps_frame (k a)) -> keeps_frame (bind m k).
Proof.
  intros Hm Hk w. unfold bind.
  destruct (Hm w) as (Hfs & l1 & Hout).
  destruct (m w) as [w1 [e|a]]; cbn [fst] in *.
  - split; [exact Hfs | now exists l1].
  - destruct (Hk a w1) as (Hfs' & l2 & Hout').
    split; [congruence |].
    exists (l1 ++ l2)%list. now rewrite Hout', Hout, app_assoc.
Qed.

Lemma keeps_frame_is_dir (p : path) : keeps_frame (is_dir p).
Proof.
  intros w. rewrite is_dir_run.
  split; [reflexivity | exists []; now rewrite app_nil_r].
Qed.

Lemma keeps_frame_iterdir (p : path) : keeps_frame (iterdir p).
Proof.
  intros w. unfold iterdir.
  destruct (resolve (fs w) p) as [[|es]|];
    (split; [reflexivity | exists []; now rewrite app_nil_r]).
Qed.

Lemma keeps_frame_print (line : string) : keeps_frame (print line).
Proof. intros w. split; [reflexivity | now exists [line]]. Qed.

Lemma keeps_frame_getitem0 (s : string) : keeps_frame (getitem0 s).
Proof.
  destruct s; [apply keeps_frame_raise | apply keeps_frame_ret].
Qed.

Lemma keeps_frame_list_getitem0 (l : list string) :
  keeps_frame (list_getitem0 l).
Proof.
  destruct l; [apply keeps_frame_raise | apply keeps_frame_ret].
Qed.

#[local] Hint Resolve keeps_frame_ret keeps_frame_raise keeps_frame_is_dir
  keeps_frame_iterdir keeps_frame_print keeps_frame_getitem0
  keeps_frame_list_getitem0 : frame.

Ltac frame_step :=
  repeat first
    [ apply keeps_frame_bind; [| intros ?]
    | solve [auto with frame]
    | match goal with
      | |- keeps_frame (if ?b then _ else _) => destruct b
      end ].

Lemma keeps_frame_anlge_of (file : path) : keeps_frame (anlge_of file).
Proof. unfold anlge_of. frame_step. Qed.

#[local] Hint Resolve keeps_frame_anlge_of : frame.

Lemma keeps_frame_file_loop (molecule _edge : string) (files : list path) :
  keeps_frame (file_loop molecule _edge files).
Proof.
  induction files as [|f files IH]; cbn [file_loop]; frame_step.
Qed.

Lemma keeps_frame_edge_label (edge : path) : keeps_frame (edge_label edge).
Proof. unfold edge_label. frame_step. Qed.

#[local] Hint Resolve keeps_frame_file_loop keeps_frame_edge_label : frame.

Lemma keeps_frame_edge_loop (molecule : string) (edges : list path) :
  keeps_frame (edge_loop molecule edges).
Proof.
  induction edges as [|e edges IH]; cbn [edge_loop]; frame_step.
Qed.

#[local] Hint Resolve keeps_frame_edge_loop : frame.

Lemma keeps_frame_molecule_body (molecule : string) :
  keeps_frame (molecule_body molecule).
Proof. unfold molecule_body. frame_step. Qed.

Lemma keeps_frame_molecule_loop (molecules : list string) :
  keeps_frame (molecule_loop molecules).
Proof.
  induction molecules as [|m molecules IH]; cbn [molecule_loop]; frame_step.
Qed.

Lemma keeps_frame_molecules_of (xs : list path) :
  keeps_frame (molecules_of xs).
Proof.
  induction xs as [|x xs IH]; cbn [molecules_of]; frame_step.
Qed.

#[local] Hint Resolve keeps_frame_molecule_loop keeps_frame_molecules_of : frame.

(** C9.  Whatever the tree and whatever was printed before, a run of the
    script leaves the file system exactly as it found it and its only
    effect is to append lines to standard output; this holds for runs that
    end in an uncaught exception as well. *)
Theorem script_only_prints (w : world) :
  fs (fst (script w)) = fs w
  /\ exists lines, stdout (fst (script w)) = (stdout w ++ lines)%list.
Proof.
  revert w. change (keeps_frame script). unfold script. frame_step.
Qed.

(** ** The outer loops *)

Lemma keeps_frame_run {A} (m : M A) (w : world) :
  keeps_frame m ->
  exists lines r, m w = (mkWorld (fs w) (stdout w ++ lines), r).
Proof.
  intros H. destruct (H w) as (Hfs & lines & Hout).
  destruct (m w) as [[t out] r]. cbn [fst fs stdout] in *. subst.
  now exists lines, r.
Qed.

Lemma bind_assoc {A B C} (m : M A) (k : A -> M B) (h : B -> M C) (w : world) :
  bind (bind m k) h w = bind m (fun a => bind (k a) h) w.
Proof.
  unfold bind. destruct (m w) as [w1 [e|a]]; reflexivity.
Qed.

Lemma molecule_loop_cons (molecule : string) (rest : list string) (w : world) :
  molecule_loop (molecule :: rest) w
  = (molecule_body molecule ;;; molecule_loop rest) w.
Proof.
  cbn [molecule_loop]. unfold molecule_body. now rewrite bind_assoc.
Qed.

Lemma molecules_of_run (xs : list path) (w : world) :
  molecules_of xs w = (w, inr (molecule_names (fs w) xs)).
Proof.
  induction xs as [|x xs IH]; [reflexivity |].
  cbn [molecules_of]. unfold bind. rewrite is_dir_run, IH.
  unfold ret, molecule_names. cbn [filter]. fold (is_dir_b (fs w) x).
  now destruct (is_dir_b (fs w) x
                && negb (String.eqb (name x) "Energy Calibration")).
Qed.

Lemma script_run (es : list (string * node)) (out : list string) :
  script (mkWorld (Dir es) out)
  = molecule_loop
      (molecule_names (Dir es) (map (fun e => joinpath data_path (fst e)) es))
      (mkWorld (Dir es) out).
Proof.
  unfold script, bind.
  rewrite (iterdir_run data_path (mkWorld (Dir es) out) es eq_refl).
  now rewrite molecules_of_run.
Qed.

Lemma lookup_In (s : string) (es : list (string * node)) (n : node) :
  lookup s es = Some n -> In (s, n) es.
Proof.
  induction es as [|[s' n'] es IH]; simpl; [discriminate |].
  destruct (String.eqb_spec s s') as [->|_].
  - intros [= ->]. now left.
  - intros H. right. now apply IH.
Qed.

Lemma lookup_NoDup (s : string) (es : list (string * node)) (n : node) :
  NoDup (map fst es) -> In (s, n) es -> lookup s es = Some n.
Proof.
  induction es as [|[s' n'] es IH]; simpl; [contradiction |].
  intros Hnd [H|H].
  - injection H as -> ->. now rewrite String.eqb_refl.
  - inversion Hnd as [|? ? Hnotin Hnd']; subst.
    destruct (String.eqb_spec s s') as [->|_].
    + exfalso. apply Hnotin. now apply (in_map fst) in H.
    + now apply IH.
Qed.

(** The edge loop on the listing of a molecule directory whose first
    directory-typed entry is [(nm, Dir files)]. *)
Lemma edge_loop_listing (molecule : string) (p : path) (w : world)
      (pre post : list (string * node)) (nm : string)
      (files : list (string * node)) (c : ascii) (r : string) :
  resolve (fs w) p = Some (Dir (pre ++ (nm, Dir files) :: post)) ->
  NoDup (map fst (pre ++ (nm, Dir files) :: post)) ->
  Forall (fun e => is_dir_node (snd e) = false) pre ->
  nm = String c r ->
  edge_loop molecule
            (map (fun e => joinpath p (fst e)) (pre ++ (nm, Dir files) :: post)) w
  = (mkWorld (fs w) (stdout w ++ entry_lines molecule (Spec.edge_label c) files),
     inr tt).
Proof.
  intros Hp Hnd Hpre Hnm.
  rewrite map_app. cbn [map fst].
  rewrite edge_loop_skip.
  - rewrite edge_loop_dir.
    + apply process_edge_run with (r := r).
      * rewrite resolve_joinpath, Hp.
        apply lookup_NoDup; [exact Hnd |]. apply in_elt.
      * now rewrite name_joinpath.
    + apply is_dir_of_resolve with (es := files).
      rewrite resolve_joinpath, Hp.
      apply lookup_NoDup; [exact Hnd |]. apply in_elt.
  - apply Forall_forall. intros q Hq.
    apply in_map_iff in Hq as ([s n] & <- & Hin).
    rewrite is_dir_run, resolve_joinpath, Hp. cbn [fst].
    rewrite (lookup_NoDup s _ n Hnd) by (apply in_or_app; now left).
    rewrite Forall_forall in Hpre. specialize (Hpre _ Hin).
    cbn [snd] in Hpre. now rewrite Hpre.
Qed.

(** When the loop over the molecules ends normally, what one of its
    molecules prints is part of the output. *)
Lemma molecule_loop_prints (line : string) (m : string) (l1 l2 : list string) :
  forall w,
    (forall w1, fs w1 = fs w ->
                exists lines,
                  molecule_body m w1
                  = (mkWorld (fs w1) (stdout w1 ++ lines), inr tt)
                  /\ In line lines) ->
    snd (molecule_loop (l1 ++ m :: l2) w) = inr tt ->
    In line (stdout (fst (molecule_loop (l1 ++ m :: l2) w))).
Proof.
  induction l1 as [|a l1 IH]; intros w Hbody Hok.
  - cbn [app] in *. rewrite molecule_loop_cons in *. unfold bind in *.
    destruct (Hbody w eq_refl) as (lines & -> & Hin).
    destruct (keeps_frame_run (molecule_loop l2)
                (mkWorld (fs w) (stdout w ++ lines))
                (keeps_frame_molecule_loop l2)) as (more & r & ->).
    cbn [fst stdout]. apply in_or_app. left. apply in_or_app. now right.
  - cbn [app] in *. rewrite molecule_loop_cons in *. unfold bind in *.
    destruct (keeps_frame_run (molecule_body a) w
                (keeps_frame_molecule_body a)) as (la & ra & Ea).
    rewrite Ea in *. destruct ra as [e|[]]; [discriminate |].
    apply IH; [| exact Hok].
    intros w1 Hw1. apply Hbody. now rewrite Hw1.
Qed.

Lemma run_Dir (es : list (string * node)) :
  run (Dir es)
  = (stdout (fst (script (mkWorld (Dir es) []))),
     snd (script (mkWorld (Dir es) []))).
Proof. unfold run. now destruct (script (mkWorld (Dir es) [])). Qed.

Lemma in_molecule_names (es : list (string * node)) (m : string)
      (kids : list (string * node)) :
  lookup m es = Some (Dir kids) ->
  m <> "Energy Calibration" ->
  stem_of m = m ->
  In m (molecule_names (Dir es)
                       (map (fun e => joinpath data_path (fst e)) es)).
Proof.
  intros Hl Hne Hst. unfold molecule_names.
  apply in_map_iff. exists (joinpath data_path m). split.
  - now rewrite stem_joinpath.
  - apply filter_In. split.
    + apply in_map_iff. exists (m, Dir kids). split; [reflexivity |].
      now apply lookup_In.
    + unfold is_dir_b. rewrite resolve_joinpath. cbn [resolve data_path].
      rewrite Hl, name_joinpath. cbn [is_dir_node andb].
      apply String.eqb_neq in Hne. now rewrite Hne.
Qed.

Lemma in_entry_lines (molecule _edge nm : string) (es : list (string * node)) :
  In nm (map fst es) ->
  suffix_of nm = ".txt" ->
  In (message molecule _edge (anlge_str (stem_of nm)))
     (entry_lines molecule _edge es).
Proof.
  intros Hin Hs. apply in_map_iff in Hin as ([s n] & Hfst & Hin).
  cbn [fst] in Hfst. subst s.
  unfold entry_lines. apply in_map_iff. exists (nm, n). split; [reflexivity |].
  apply filter_In. split; [exact Hin |]. cbn [fst]. now rewrite Hs.
Qed.

(** C2, as amended.  Let [M] be a root-level directory other than "Energy
    Calibration" whose name is its own stem, let the entries of [M] have
    distinct names, and let "carbon" be the first directory-typed entry
    that the listing of [M] yields, holding an entry "45deg_scan.txt".
    Then a run that ends without an uncaught exception has printed
    "Loading data for M at the C-K at 45 degrees". *)
Theorem carbon_45deg_line_printed
        (es : list (string * node)) (M : string)
        (pre post files : list (string * node)) :
  lookup M es = Some (Dir (pre ++ ("carbon", Dir files) :: post)) ->
  M <> "Energy Calibration" ->
  stem_of M = M ->
  NoDup (map fst (pre ++ ("carbon", Dir files) :: post)) ->
  Forall (fun e => is_dir_node (snd e) = false) pre ->
  In "45deg_scan.txt" (map fst files) ->
  snd (run (Dir es)) = inr tt ->
  In ("Loading data for " ++ M ++ " at the C-K at 45 degrees")
     (fst (run (Dir es))).
Proof.
  intros Hl Hne Hst Hnd Hpre Hfile Hok.
  rewrite run_Dir in *. cbn [fst snd] in *.
  rewrite script_run in *.
  destruct (in_split _ _ (in_molecule_names es M _ Hl Hne Hst))
    as (l1 & l2 & E).
  rewrite E in *.
  apply molecule_loop_prints; [| exact Hok].
  intros w1 Hw1. cbn [fs] in Hw1.
  exists (entry_lines M (Spec.edge_label "c") files). split.
  - unfold molecule_body, bind.
    assert (Hr : resolve (fs w1) (joinpath data_path M)
                 = Some (Dir (pre ++ ("carbon", Dir files) :: post))).
    { rewrite Hw1, resolve_joinpath. exact Hl. }
    rewrite (iterdir_run _ _ _ Hr).
    now apply edge_loop_listing with (r := "arbon").
  - exact (in_entry_lines M (Spec.edge_label "c") "45deg_scan.txt" files
                          Hfile eq_refl).
Qed.

Lemma carbon_45deg_line_printed_witness :
  In "Loading data for P3HT at the C-K at 45 degrees"
     (fst (run (Dir [ ("Energy Calibration", Dir []);
                      ("P3HT", Dir [ ("notes.md", File);
                                     ("carbon", Dir [ ("45deg_scan.txt", File) ]);
                                     ("nitrogen", Dir []) ]) ]))).
Proof.
  refine (carbon_45deg_line_printed
            [ ("Energy Calibration", Dir []);
              ("P3HT", Dir [ ("notes.md", File);
                             ("carbon", Dir [ ("45deg_scan.txt", File) ]);
                             ("nitrogen", Dir []) ]) ]
            "P3HT" [ ("notes.md", File) ] [ ("nitrogen", Dir []) ]
            [ ("45deg_scan.txt", File) ] eq_refl _ eq_refl _ _ _ eq_refl).
  - discriminate.
  - repeat constructor; simpl; intuition discriminate.
  - repeat constructor.
  - simpl. now left.
Defined.

(** C2 as stated fails when the molecule directory yields another
    directory first: "carbon" holds "45deg_scan.txt", the run ends normally,
    and only the line of "boron" is printed. *)
Lemma carbon_line_missing_when_second_edge :
  resolve boron_first_tree ["P3HT"; "carbon"; "45deg_scan.txt"] = Some File
  /\ run boron_first_tree
     = (["Loading data for P3HT at the B-K at 20 degrees"], inr tt)
  /\ ~ In "Loading data for P3HT at the C-K at 45 degrees"
          (fst (run boron_first_tree)).
Proof.
  split; [reflexivity |]. split; [reflexivity |].
  vm_compute. intros [H|[]]. discriminate H.
Qed.

(** ** Stems without "deg" and short stems *)

(** C3 as stated fails: "scan.txt" has a stem without "deg", "a.txt" has a
    one-character stem, both are processed, a line is printed for each,
    and the run ends normally. *)
Lemma malformed_names_raise_nothing :
  Spec.find "deg" (stem_of "scan.txt") = None
  /\ String.length (stem_of "a.txt") < 2
  /\ run odd_names_tree
     = (["Loading data for P3HT at the C-K at an degrees";
         "Loading data for P3HT at the C-K at a degrees"], inr tt).
Proof.
  split; [reflexivity |]. split; [vm_compute; lia | reflexivity].
Qed.

(** C3, as amended.  A processed entry whose stem has no "deg", or fewer
    than two characters, raises nothing: its line is printed, with the
    last two characters of the part of the stem before "deg" (all of that
    part when it is shorter, the whole stem when "deg" is absent), and the
    loop goes on with the entries that follow. *)
Theorem malformed_stem_is_printed
        (molecule _edge : string) (file : path) (rest : list path) (w : world) :
  suffix file = ".txt" ->
  Spec.find "deg" (stem file) = None \/ String.length (stem file) < 2 ->
  anlge_of file w = (w, inr (Spec.last_two (Spec.before_first "deg" (stem file))))
  /\ file_loop molecule _edge (file :: rest) w
     = file_loop molecule _edge rest
         (mkWorld (fs w)
            (stdout w
             ++ [message molecule _edge
                         (Spec.last_two (Spec.before_first "deg" (stem file)))]))
  /\ snd (file_loop molecule _edge (file :: rest) w) = inr tt
  /\ (Spec.find "deg" (stem file) = None ->
      Spec.before_first "deg" (stem file) = stem file).
Proof.
  intros Hs _. repeat split.
  - now rewrite anlge_of_run, anlge_str_spec.
  - rewrite !file_loop_run. cbn [fs stdout].
    rewrite (file_lines_cons_txt _ _ _ _ Hs), anlge_str_spec.
    unfold Spec.angle. now rewrite <- app_assoc.
  - now rewrite file_loop_run.
  - intros Hf. unfold Spec.before_first. now rewrite Hf.
Qed.

Lemma malformed_stem_is_printed_witness :
  file_loop "P3HT" "C-K" [ ["P3HT"; "carbon"; "scan.txt"] ] (mkWorld File [])
  = (mkWorld File ["Loading data for P3HT at the C-K at an degrees"], inr tt).
Proof.
  refine (proj1 (proj2 (malformed_stem_is_printed
                          "P3HT" "C-K" ["P3HT"; "carbon"; "scan.txt"] []
                          (mkWorld File []) eq_refl _))).
  left. reflexivity.
Defined.

(** ** "Energy Calibration" *)

(** The guard of the comprehension: an entry named "Energy Calibration"
    adds nothing to the list of molecules. *)
Lemma molecule_names_skip_calibration (t : node) (pre post : list path)
      (x : path) :
  name x = "Energy Calibration" ->
  molecule_names t (pre ++ x :: post) = molecule_names t (pre ++ post).
Proof.
  intros H. unfold molecule_names. rewrite !filter_app. cbn [filter].
  rewrite H. cbn [String.eqb Ascii.eqb Bool.eqb negb andb].
  now rewrite andb_false_r.
Qed.

(** When no root-level name has a suffix, "Energy Calibration" is not
    among the molecules. *)
Lemma calibration_not_a_molecule (es : list (string * node)) :
  Forall (fun e => stem_of (fst e) = fst e) es ->
  ~ In "Energy Calibration"
       (molecule_names (Dir es) (map (fun e => joinpath data_path (fst e)) es)).
Proof.
  intros Hst Hin. unfold molecule_names in Hin.
  apply in_map_iff in Hin as (x & Hx & Hf).
  apply filter_In in Hf as (Hxin & Hc).
  apply in_map_iff in Hxin as (e & <- & Hein).
  rewrite Forall_forall in Hst. specialize (Hst e Hein).
  rewrite stem_joinpath, Hst in Hx.
  rewrite name_joinpath, Hx in Hc.
  cbn [String.eqb Ascii.eqb Bool.eqb negb] in Hc.
  now rewrite andb_false_r in Hc.
Qed.

(** C6 on [calibration_tree].  The directory "Energy Calibration.old" passes
    the guard on [name] and is recorded under its stem "Energy Calibration";
    the path [data_path / "Energy Calibration"] then names the excluded
    directory, whose edge is listed and printed. *)
Theorem calibration_listed_through_stem :
  molecule_names calibration_tree
    [ joinpath data_path "Energy Calibration";
      joinpath data_path "Energy Calibration.old" ]
  = ["Energy Calibration"]
  /\ run calibration_tree
     = (["Loading data for Energy Calibration at the C-K at 45 degrees"],
        inr tt).
Proof. split; reflexivity. Qed.

(** ** Directories named like data files *)

(** C10.  The file loop looks at the suffix of an entry and never at its
    kind: with a directory [nm] whose suffix is ".txt" in the listing of
    the edge directory, the run prints the line of [nm] between the lines
    of the entries around it, and it prints exactly the same lines as on a
    tree where [nm] is a regular file. *)
Theorem txt_named_directory_is_printed
        (molecule _edge nm : string) (edge : path)
        (pre post kids : list (string * node)) (t t' : node)
        (out : list string) :
  resolve t edge = Some (Dir (pre ++ (nm, Dir kids) :: post)) ->
  resolve t' edge = Some (Dir (pre ++ (nm, File) :: post)) ->
  suffix_of nm = ".txt" ->
  let lines :=
    (entry_lines molecule _edge pre
     ++ message molecule _edge (anlge_str (stem_of nm))
        :: entry_lines molecule _edge post)%list in
  (files <- iterdir edge ;; file_loop molecule _edge files) (mkWorld t out)
  = (mkWorld t (out ++ lines), inr tt)
  /\ (files <- iterdir edge ;; file_loop molecule _edge files) (mkWorld t' out)
     = (mkWorld t' (out ++ lines), inr tt).
Proof.
  intros Ht Ht' Hs lines.
  assert (Hl : forall n,
             entry_lines molecule _edge (pre ++ (nm, n) :: post) = lines).
  { intros n. rewrite entry_lines_app. unfold lines. f_equal.
    unfold entry_lines. cbn [filter fst]. now rewrite Hs. }
  split; unfold bind.
  - rewrite (iterdir_run edge (mkWorld t out) _ Ht).
    now rewrite file_loop_run, file_lines_joinpath, Hl.
  - rewrite (iterdir_run edge (mkWorld t' out) _ Ht').
    now rewrite file_loop_run, file_lines_joinpath, Hl.
Qed.

Lemma txt_named_directory_is_printed_witness :
  (files <- iterdir ["P3HT"; "carbon"] ;; file_loop "P3HT" "C-K" files)
    (mkWorld txt_dir_tree [])
  = (mkWorld txt_dir_tree ["Loading data for P3HT at the C-K at 45 degrees"],
     inr tt).
Proof.
  exact (proj1 (txt_named_directory_is_printed
                  "P3HT" "C-K" "45deg.txt" ["P3HT"; "carbon"] [] []
                  [ ("raw", File) ] txt_dir_tree txt_file_tree []
                  eq_refl eq_refl eq_refl)).
Defined.

(** ** Concrete runs *)

Example run_carbon :
  run (carbon_tree "P3HT")
  = (["Loading data for P3HT at the C-K at 45 degrees"], inr tt).
Proof. reflexivity. Qed.

Example run_txt_dir :
  run txt_dir_tree = run txt_file_tree
  /\ run txt_dir_tree
     = (["Loading data for P3HT at the C-K at 45 degrees"], inr tt).
Proof. split; reflexivity. Qed.

Example run_dotted_molecule :
  run (carbon_tree "P3HT.v2") = ([], inl FileNotFoundError).
Proof. reflexivity. Qed.

(** ** Molecule directories without a subdirectory *)

Lemma lookup_files_only (s : string) (es : list (string * node)) :
  Forall (fun e => is_dir_node (snd e) = false) es ->
  match lookup s es with
  | Some n => is_dir_node n
  | None => false
  end = false.
Proof.
  induction 1 as [|[s' n] es Hn _ IH]; [reflexivity |].
  cbn [lookup]. destruct (String.eqb s s'); [exact Hn | exact IH].
Qed.

Lemma edge_loop_files_only (molecule : string) (p : path) (w : world)
      (kids : list (string * node)) :
  resolve (fs w) p = Some (Dir kids) ->
  Forall (fun e => is_dir_node (snd e) = false) kids ->
  edge_loop molecule (map (fun e => joinpath p (fst e)) kids) w = (w, inr tt).
Proof.
  intros Hp Hk.
  rewrite <- (app_nil_r (map _ kids)).
  rewrite edge_loop_skip; [reflexivity |].
  apply Forall_forall. intros q Hq.
  apply in_map_iff in Hq as (e & <- & _).
  rewrite is_dir_run, resolve_joinpath, Hp.
  now rewrite (lookup_files_only (fst e) kids Hk).
Qed.

(** X1.  A molecule directory that holds no directory (it is empty, or
    holds regular files only) is listed and passed over: nothing is printed
    for it, no exception is raised, and the world is as before. *)
Theorem molecule_without_subdirectory
        (molecule : string) (w : world) (kids : list (string * node)) :
  resolve (fs w) (joinpath data_path molecule) = Some (Dir kids) ->
  Forall (fun e => is_dir_node (snd e) = false) kids ->
  molecule_body molecule w = (w, inr tt).
Proof.
  intros Hp Hk. unfold molecule_body, bind.
  rewrite (iterdir_run _ _ _ Hp).
  now apply edge_loop_files_only.
Qed.

Lemma molecule_without_subdirectory_witness :
  let tree := Dir [ ("P3HT", Dir [ ("45deg.txt", File); ("notes.md", File) ]) ] in
  molecule_body "P3HT" (mkWorld tree []) = (mkWorld tree [], inr tt).
Proof.
  intros tree.
  refine (molecule_without_subdirectory
            "P3HT" (mkWorld tree [])
            [ ("45deg.txt", File); ("notes.md", File) ] eq_refl _).
  repeat constructor.
Defined.

(** ** The run on a well-formed tree *)

Lemma first_dir_None (kids : list (string * node)) :
  first_dir kids = None ->
  Forall (fun e => is_dir_node (snd e) = false) kids.
Proof.
  induction kids as [|[nm [|files]] kids IH]; cbn [first_dir]; intros H.
  - constructor.
  - constructor; [reflexivity | now apply IH].
  - discriminate.
Qed.

Lemma first_dir_Some (kids : list (string * node)) (nm : string)
      (files : list (string * node)) :
  first_dir kids = Some (nm, files) ->
  exists pre post,
    kids = (pre ++ (nm, Dir files) :: post)%list
    /\ Forall (fun e => is_dir_node (snd e) = false) pre.
Proof.
  induction kids as [|[nm' [|files']] kids IH]; cbn [first_dir]; intros H.
  - discriminate.
  - destruct (IH H) as (pre & post & -> & Hpre).
    exists ((nm', File) :: pre), post. split; [reflexivity |].
    constructor; [reflexivity | exact Hpre].
  - injection H as -> ->. exists [], kids. split; [reflexivity | constructor].
Qed.

(** What the body of the molecule loop does on a directory whose entries
    have distinct, non-empty names. *)
Lemma molecule_body_run (molecule : string) (w : world)
      (kids : list (string * node)) :
  resolve (fs w) (joinpath data_path molecule) = Some (Dir kids) ->
  NoDup (map fst kids) ->
  ~ In "" (map fst kids) ->
  molecule_body molecule w
  = (mkWorld (fs w) (stdout w ++ molecule_lines molecule kids), inr tt).
Proof.
  intros Hp Hnd Hne. unfold molecule_lines.
  destruct (first_dir kids) as [[nm files]|] eqn:E.
  - destruct (first_dir_Some kids nm files E) as (pre & post & -> & Hpre).
    destruct nm as [|c r].
    + exfalso. apply Hne. rewrite map_app. apply in_or_app. right. now left.
    + unfold molecule_body, bind. rewrite (iterdir_run _ _ _ Hp).
      now apply edge_loop_listing with (r := r).
  - unfold molecule_body, bind. rewrite (iterdir_run _ _ _ Hp).
    rewrite (edge_loop_files_only molecule _ w kids Hp (first_dir_None kids E)).
    now rewrite app_nil_r, world_eta.
Qed.

Lemma is_dir_b_root (es : list (string * node)) (e : string * node) :
  NoDup (map fst es) ->
  In e es ->
  is_dir_b (Dir es) (joinpath data_path (fst e)) = is_dir_node (snd e).
Proof.
  intros Hnd Hin. unfold is_dir_b.
  rewrite resolve_joinpath. cbn [resolve data_path].
  rewrite (lookup_NoDup (fst e) es (snd e) Hnd); [reflexivity |].
  now destruct e.
Qed.

(** The list of molecules built from (a part of) the root listing, when
    the root-level names are distinct and no directory has a suffix. *)
Lemma molecule_names_root (es l : list (string * node)) :
  NoDup (map fst es) ->
  incl l es ->
  Forall (fun e => is_dir_node (snd e) = true -> stem_of (fst e) = fst e) l ->
  molecule_names (Dir es) (map (fun e => joinpath data_path (fst e)) l)
  = map fst (filter is_molecule_entry l).
Proof.
  intros Hnd Hincl Hst. unfold molecule_names.
  induction l as [|e l IH]; [reflexivity |].
  inversion Hst as [|? ? He Hl]; subst.
  assert (Hin : In e es) by (apply Hincl; now left).
  assert (Hincl' : incl l es) by (intros x Hx; apply Hincl; now right).
  cbn [map filter].
  rewrite (is_dir_b_root es e Hnd Hin), name_joinpath.
  change (is_molecule_entry e)
    with (is_dir_node (snd e)
          && negb (String.eqb (fst e) "Energy Calibration")).
  destruct (is_dir_node (snd e)
            && negb (String.eqb (fst e) "Energy Calibration")) eqn:Em.
  - apply andb_true_iff in Em as [Ed _].
    cbn [map]. rewrite stem_joinpath, (He Ed). f_equal.
    now apply IH.
  - now apply IH.
Qed.

Lemma molecule_loop_root (es l : list (string * node)) :
  NoDup (map fst es) ->
  incl l es ->
  Forall (fun e => forall kids,
              snd e = Dir kids ->
              NoDup (map fst kids) /\ ~ In "" (map fst kids)) l ->
  forall w,
    fs w = Dir es ->
    molecule_loop (map fst (filter is_molecule_entry l)) w
    = (mkWorld (fs w) (stdout w ++ flat_map root_lines l), inr tt).
Proof.
  intros Hnd Hincl Hk.
  induction l as [|e l IH]; intros w Hw.
  - cbn. unfold ret. now rewrite app_nil_r, world_eta.
  - inversion Hk as [|? ? He Hl]; subst.
    assert (Hin : In e es) by (apply Hincl; now left).
    assert (Hincl' : incl l es) by (intros x Hx; apply Hincl; now right).
    cbn [filter flat_map]. unfold root_lines at 1.
    destruct e as [nm [|kids]]; cbn [snd fst].
    + unfold is_molecule_entry at 1. cbn [snd is_dir_node andb].
      cbn [app]. now apply IH.
    + destruct (is_molecule_entry (nm, Dir kids)) eqn:Em.
      * cbn [map fst]. rewrite molecule_loop_cons. unfold bind.
        destruct (He kids eq_refl) as (Hndk & Hnek).
        rewrite (molecule_body_run nm w kids); [| | exact Hndk | exact Hnek].
        -- rewrite (IH Hincl' Hl); [| exact Hw].
           cbn [fs stdout]. now rewrite app_assoc.
        -- rewrite resolve_joinpath, Hw. cbn [resolve data_path].
           now apply lookup_NoDup.
      * cbn [app]. now apply IH.
Qed.

(** X3.  On a tree whose root-level names are distinct, whose root-level
    directories have no suffix in their names, and whose molecule
    directories list distinct, non-empty names, the run ends normally and
    prints exactly this: for each root-level directory other than "Energy
    Calibration", in the order of the root listing, the lines of the ".txt"
    entries of its first directory-typed entry, in the order of that
    entry's listing, labelled with the directory name, the edge label and
    the angle.  Root-level regular files and "Energy Calibration" add
    nothing. *)
Theorem run_on_well_formed_tree (es : list (string * node)) :
  NoDup (map fst es) ->
  Forall (fun e => is_dir_node (snd e) = true -> stem_of (fst e) = fst e) es ->
  Forall (fun e => forall kids,
              snd e = Dir kids ->
              NoDup (map fst kids) /\ ~ In "" (map fst kids)) es ->
  run (Dir es) = (tree_lines es, inr tt).
Proof.
  intros Hnd Hst Hk.
  rewrite run_Dir, script_run.
  rewrite (molecule_names_root es es Hnd (incl_refl es) Hst).
  rewrite (molecule_loop_root es es Hnd (incl_refl es) Hk
                              (mkWorld (Dir es) []) eq_refl).
  reflexivity.
Qed.

Lemma run_on_well_formed_tree_witness :
  run (Dir [ ("readme.txt", File);
             ("Energy Calibration", Dir [ ("carbon", Dir [ ("10deg.txt", File) ]) ]);
             ("P3HT", Dir [ ("notes.md", File);
                            ("carbon", Dir [ ("20deg.txt", File);
                                             ("55deg_a.txt", File);
                                             ("plot.png", File) ]);
                            ("nitrogen", Dir [ ("90deg.txt", File) ]) ]);
             ("Y6", Dir []) ])
  = ([ "Loading data for P3HT at the C-K at 20 degrees";
       "Loading data for P3HT at the C-K at 55 degrees" ], inr tt).
Proof.
  refine (run_on_well_formed_tree _ _ _ _).
  - repeat constructor; simpl; intuition discriminate.
  - repeat constructor; intros; try reflexivity; discriminate.
  - apply Forall_forall. intros e He kids Hk. simpl in He.
    repeat (destruct He as [<-|He]); try contradiction;
      cbn in Hk; try discriminate; injection Hk as <-;
      (split; [repeat constructor; simpl; intuition discriminate
              | simpl; intuition discriminate]).
Defined.

(** ** Root-level directories whose stem names no directory *)

Lemma stem_in_molecule_names (es : list (string * node)) (nm : string)
      (kids : list (string * node)) :
  lookup nm es = Some (Dir kids) ->
  nm <> "Energy Calibration" ->
  In (stem_of nm)
     (molecule_names (Dir es) (map (fun e => joinpath data_path (fst e)) es)).
Proof.
  intros Hl Hne. unfold molecule_names.
  apply in_map_iff. exists (joinpath data_path nm). split.
  - apply stem_joinpath.
  - apply filter_In. split.
    + apply in_map_iff. exists (nm, Dir kids). split; [reflexivity |].
      now apply lookup_In.
    + unfold is_dir_b. rewrite resolve_joinpath. cbn [resolve data_path].
      rewrite Hl, name_joinpath. cbn [is_dir_node andb].
      apply String.eqb_neq in Hne. now rewrite Hne.
Qed.

Lemma molecule_body_no_directory (m : string) (w : world) :
  (forall kids, resolve (fs w) (joinpath data_path m) <> Some (Dir kids)) ->
  molecule_body m w
  = (w, inl (match resolve (fs w) (joinpath data_path m) with
             | Some _ => NotADirectoryError
             | None => FileNotFoundError
             end)).
Proof.
  intros H. unfold molecule_body, bind, iterdir.
  destruct (resolve (fs w) (joinpath data_path m)) as [[|kids]|];
    [reflexivity | now destruct (H kids) | reflexivity].
Qed.

(** A molecule whose body raises makes the whole loop end in an
    exception (its own, or one raised before it is reached). *)
Lemma molecule_loop_raises (m : string) (l1 l2 : list string) :
  forall w,
    (forall w1, fs w1 = fs w -> exists e, snd (molecule_body m w1) = inl e) ->
    exists e, snd (molecule_loop (l1 ++ m :: l2) w) = inl e.
Proof.
  induction l1 as [|a l1 IH]; intros w Hbody.
  - cbn [app]. rewrite molecule_loop_cons. unfold bind.
    destruct (Hbody w eq_refl) as (e & He).
    destruct (molecule_body m w) as [w1 [e'|[]]]; cbn [snd] in *.
    + now exists e'.
    + discriminate.
  - cbn [app]. rewrite molecule_loop_cons. unfold bind.
    destruct (keeps_frame_run (molecule_body a) w
                (keeps_frame_molecule_body a)) as (la & ra & ->).
    destruct ra as [e|[]].
    + now exists e.
    + apply IH. intros w1 Hw1. apply Hbody. now rewrite Hw1.
Qed.

(** X2.  A root-level directory [nm] other than "Energy Calibration" is
    recorded under its stem and looked up again as [data_path / stem].
    When the stem is an ordinary component (not "." or "..", which pathlib
    reads as [data_path] itself and as its parent) and names no directory
    of the root (the name has a suffix, as in "P3HT.v2", and nothing, or a
    regular file, is called "P3HT"), the run cannot end normally: it stops
    with an uncaught exception. *)
Theorem run_raises_on_dangling_stem
        (es : list (string * node)) (nm : string) (kids : list (string * node)) :
  lookup nm es = Some (Dir kids) ->
  nm <> "Energy Calibration" ->
  is_ordinary (stem_of nm) = true ->
  (forall k, lookup (stem_of nm) es <> Some (Dir k)) ->
  exists e, snd (run (Dir es)) = inl e.
Proof.
  intros Hl Hne _ Hst.
  rewrite run_Dir. cbn [snd]. rewrite script_run.
  destruct (in_split _ _ (stem_in_molecule_names es nm kids Hl Hne))
    as (l1 & l2 & ->).
  apply molecule_loop_raises.
  intros w1 Hw1. cbn [fs] in Hw1.
  rewrite molecule_body_no_directory.
  - cbn [snd]. eauto.
  - intros k. rewrite resolve_joinpath, Hw1. cbn [resolve data_path].
    apply Hst.
Qed.

Lemma run_raises_on_dangling_stem_witness :
  exists e, snd (run (carbon_tree "P3HT.v2")) = inl e.
Proof.
  refine (run_raises_on_dangling_stem
            [ ("P3HT.v2", Dir [ ("carbon", Dir [ ("45deg_scan.txt", File) ]) ]) ]
            "P3HT.v2" [ ("carbon", Dir [ ("45deg_scan.txt", File) ]) ]
            eq_refl _ eq_refl _).
  - discriminate.
  - intros k. vm_compute. discriminate.
Defined.

(** ** The angle *)

Lemma length_drop (n : nat) (s : string) :
  String.length (PyStr.drop n s) = String.length s - n.
Proof.
  revert s. induction n as [|n IH]; intros s.
  - simpl. lia.
  - destruct s as [|c s]; simpl; [reflexivity | apply IH].
Qed.

Lemma length_anlge_str (st : string) : String.length (anlge_str st) <= 2.
Proof.
  rewrite anlge_str_spec. unfold Spec.angle, Spec.last_two.
  rewrite length_drop. lia.
Qed.

(** X6.  Line 20 never raises, whatever the file name: it yields a string
    of at most two characters, and of exactly two when the part of the stem
    before the first "deg" has at least two. *)
Theorem anlge_of_total_and_short (file : path) (w : world) :
  exists a,
    anlge_of file w = (w, inr a)
    /\ String.length a <= 2
    /\ (2 <= String.length (Spec.before_first "deg" (stem file)) ->
        String.length a = 2).
Proof.
  exists (anlge_str (stem file)). split; [apply anlge_of_run |].
  split; [apply length_anlge_str |].
  intros H. rewrite anlge_str_spec. unfold Spec.angle, Spec.last_two.
  rewrite length_drop. lia.
Qed.

Lemma anlge_of_total_and_short_witness :
  exists a,
    anlge_of ["P3HT"; "carbon"; "145deg_scan.txt"] (mkWorld File [])
    = (mkWorld File [], inr a)
    /\ String.length a = 2.
Proof.
  destruct (anlge_of_total_and_short
              ["P3HT"; "carbon"; "145deg_scan.txt"] (mkWorld File []))
    as (a & Ha & _ & Hlen).
  exists a. split; [exact Ha |]. apply Hlen. vm_compute. lia.
Defined.

(** ** What is printed, and that it depends on the tree only *)

Lemma prints_ext {A} (P : string -> Prop) (m m' : M A) :
  (forall w, m w = m' w) -> prints P m' -> prints P m.
Proof.
  intros E H t. destruct (H t) as (lines & r & HP & Hrun).
  exists lines, r. split; [exact HP |]. intros out. now rewrite E.
Qed.

Lemma prints_weaken {A} (P Q : string -> Prop) (m : M A) :
  (forall line, P line -> Q line) -> prints P m -> prints Q m.
Proof.
  intros HPQ H t. destruct (H t) as (lines & r & HP & Hrun).
  exists lines, r. split; [| exact Hrun].
  eapply Forall_impl; [exact HPQ | exact HP].
Qed.

Lemma prints_ret {A} (P : string -> Prop) (a : A) : prints P (ret a).
Proof.
  intros t. exists [], (inr a). split; [constructor |].
  intros out. unfold ret. now rewrite app_nil_r.
Qed.

Lemma prints_raise {A} (P : string -> Prop) (e : fault) :
  prints P (@raise A e).
Proof.
  intros t. exists [], (inl e). split; [constructor |].
  intros out. unfold raise. now rewrite app_nil_r.
Qed.

Lemma prints_bind {A B} (P : string -> Prop) (m : M A) (k : A -> M B) :
  prints P m -> (forall a, prints P (k a)) -> prints P (bind m k).
Proof.
  intros Hm Hk t. destruct (Hm t) as (l1 & r1 & HP1 & H1).
  destruct r1 as [e|a].
  - exists l1, (inl e). split; [exact HP1 |].
    intros out. unfold bind. now rewrite H1.
  - destruct (Hk a t) as (l2 & r2 & HP2 & H2).
    exists (l1 ++ l2)%list, r2. split; [now apply Forall_app |].
    intros out. unfold bind. now rewrite H1, H2, app_assoc.
Qed.

Lemma prints_is_dir (P : string -> Prop) (p : path) : prints P (is_dir p).
Proof.
  intros t. exists [], (inr (is_dir_b t p)). split; [constructor |].
  intros out. rewrite is_dir_run, app_nil_r. reflexivity.
Qed.

Lemma prints_iterdir (P : string -> Prop) (p : path) : prints P (iterdir p).
Proof.
  intros t. unfold iterdir. cbn [fs].
  destruct (resolve t p) as [[|es]|]; eexists [], _;
    (split; [constructor | intros out; now rewrite app_nil_r]).
Qed.

Lemma prints_file_loop (molecule _edge : string) (files : list path) :
  prints (file_line molecule _edge) (file_loop molecule _edge files).
Proof.
  intros t. exists (file_lines molecule _edge files), (inr tt). split.
  - unfold file_lines. apply Forall_forall. intros line Hin.
    apply in_map_iff in Hin as (f & <- & _).
    exists (anlge_str (stem f)). split; [apply length_anlge_str | reflexivity].
  - intros out. now rewrite file_loop_run.
Qed.

Lemma edge_label_cases (edge : path) :
  (forall w, edge_label edge w = (w, inl IndexError))
  \/ exists c, forall w, edge_label edge w = (w, inr (Spec.edge_label c)).
Proof.
  unfold edge_label. destruct (stem edge) as [|c r].
  - now left.
  - right. now exists c.
Qed.

Lemma prints_edge_loop (molecule : string) (edges : list path) :
  prints (edge_line molecule) (edge_loop molecule edges).
Proof.
  induction edges as [|edge rest IH]; cbn [edge_loop].
  - apply prints_ret.
  - apply prints_bind; [apply prints_is_dir |].
    intros [|]; [| exact IH].
    destruct (edge_label_cases edge) as [E|(c & E)].
    + apply prints_ext with (m' := raise IndexError);
        [| apply prints_raise].
      intros w. unfold bind at 1. now rewrite E.
    + apply prints_ext
        with (m' := files <- iterdir edge ;;
                    file_loop molecule (Spec.edge_label c) files).
      * intros w. unfold bind at 1. now rewrite E.
      * apply prints_bind; [apply prints_iterdir |].
        intros files. eapply prints_weaken; [| apply prints_file_loop].
        intros line H. now exists c.
Qed.

Lemma prints_molecule_body (molecule : string) :
  prints (edge_line molecule) (molecule_body molecule).
Proof.
  unfold molecule_body. apply prints_bind; [apply prints_iterdir |].
  intros edges. apply prints_edge_loop.
Qed.

Lemma prints_molecule_loop (molecules : list string) :
  prints (molecule_line molecules) (molecule_loop molecules).
Proof.
  induction molecules as [|m rest IH].
  - apply prints_ret.
  - apply prints_ext with (m' := molecule_body m ;;; molecule_loop rest);
      [apply molecule_loop_cons |].
    apply prints_bind.
    + eapply prints_weaken; [| apply prints_molecule_body].
      intros line H. exists m. split; [now left | exact H].
    + intros _. eapply prints_weaken; [| exact IH].
      intros line (m' & Hin & H). exists m'. split; [now right | exact H].
Qed.

Lemma prints_molecules_of (P : string -> Prop) (xs : list path) :
  prints P (molecules_of xs).
Proof.
  induction xs as [|x xs IH]; cbn [molecules_of].
  - apply prints_ret.
  - apply prints_bind; [apply prints_is_dir | intros d].
    apply prints_bind; [exact IH | intros rest]. apply prints_ret.
Qed.

Lemma prints_script : prints (fun _ => True) script.
Proof.
  unfold script. apply prints_bind; [apply prints_iterdir | intros xs].
  apply prints_bind; [apply prints_molecules_of | intros molecules].
  eapply prints_weaken; [| apply prints_molecule_loop]. trivial.
Qed.

Lemma molecule_names_inv (es : list (string * node)) (m : string) :
  In m (molecule_names (Dir es) (map (fun e => joinpath data_path (fst e)) es)) ->
  exists nm kids,
    In (nm, Dir kids) es /\ nm <> "Energy Calibration" /\ m = stem_of nm.
Proof.
  unfold molecule_names. intros Hin.
  apply in_map_iff in Hin as (x & <- & Hf).
  apply filter_In in Hf as (Hx & Hc).
  apply in_map_iff in Hx as (e & <- & _).
  apply andb_true_iff in Hc as (Hd & Hn).
  unfold is_dir_b in Hd. rewrite resolve_joinpath in Hd.
  cbn [resolve data_path] in Hd. rewrite name_joinpath in Hn.
  destruct (lookup (fst e) es) as [[|kids]|] eqn:El; try discriminate.
  exists (fst e), kids. split; [now apply lookup_In |]. split.
  - apply String.eqb_neq. now destruct (String.eqb (fst e) "Energy Calibration").
  - now rewrite stem_joinpath.
Qed.

(** X4.  Nothing else is ever printed: on any tree, every line of a run is
    "Loading data for m at the l at a degrees" where [m] is the stem of a
    root-level directory not named "Energy Calibration", the label [l] ends
    in "-K", and [a] has at most two characters.  A tree that is not a
    directory prints nothing. *)
Theorem printed_lines_shape (tree : node) (line : string) :
  In line (fst (run tree)) ->
  exists es nm kids u a,
    tree = Dir es
    /\ In (nm, Dir kids) es
    /\ nm <> "Energy Calibration"
    /\ String.length a <= 2
    /\ line = message (stem_of nm) (u ++ "-K") a.
Proof.
  destruct tree as [|es]; [intros [] |].
  rewrite run_Dir. cbn [fst]. rewrite script_run.
  destruct (prints_molecule_loop
              (molecule_names (Dir es)
                 (map (fun e => joinpath data_path (fst e)) es)) (Dir es))
    as (lines & r & HP & Hrun).
  rewrite Hrun. cbn [fst stdout app]. intros Hin.
  rewrite Forall_forall in HP.
  destruct (HP line Hin) as (m & Hm & c & a & Hlen & ->).
  destruct (molecule_names_inv es m Hm) as (nm & kids & Hnm & Hne & ->).
  now exists es, nm, kids, (PyStr.upper (String c "")), a.
Qed.

Lemma printed_lines_shape_witness :
  exists es nm kids u a,
    carbon_tree "P3HT" = Dir es
    /\ In (nm, Dir kids) es
    /\ nm <> "Energy Calibration"
    /\ String.length a <= 2
    /\ "Loading data for P3HT at the C-K at 45 degrees"
       = message (stem_of nm) (u ++ "-K") a.
Proof.
  apply (printed_lines_shape (carbon_tree "P3HT")).
  vm_compute. now left.
Defined.

(** X5.  A run reads the tree and nothing else: started after anything
    already printed, the script appends the same lines and ends the same
    way as on an empty output; and running it a second time after a normal
    end prints the same lines once more. *)
Theorem script_repeatable (t : node) (out : list string) :
  script (mkWorld t out) = (mkWorld t (out ++ fst (run t)), snd (run t))
  /\ (snd (run t) = inr tt ->
      (script ;;; script) (mkWorld t out)
      = (mkWorld t (out ++ fst (run t) ++ fst (run t)), inr tt)).
Proof.
  destruct (prints_script t) as (lines & r & _ & Hrun).
  assert (E : run t = (lines, r)).
  { unfold run. now rewrite Hrun. }
  rewrite E. cbn [fst snd]. split; [apply Hrun |].
  intros ->. unfold bind. rewrite !Hrun. now rewrite app_assoc.
Qed.

Lemma script_repeatable_witness :
  (script ;;; script) (mkWorld (carbon_tree "P3HT") [])
  = (mkWorld (carbon_tree "P3HT")
             [ "Loading data for P3HT at the C-K at 45 degrees";
               "Loading data for P3HT at the C-K at 45 degrees" ], inr tt).
Proof.
  exact (proj2 (script_repeatable (carbon_tree "P3HT") []) eq_refl).
Defined.

(** ** Stem and suffix of a processed entry *)

Lemma take_drop (n : nat) (s : string) : PyStr.take n s ++ PyStr.drop n s = s.
Proof.
  revert s. induction n as [|n IH]; intros s; [reflexivity |].
  destruct s as [|c s]; [reflexivity |]. simpl. now rewrite IH.
Qed.

Lemma stem_suffix (nm : string) : stem_of nm ++ suffix_of nm = nm.
Proof.
  unfold stem_of, suffix_of.
  destruct ((0 <? PyStr.rfind "." nm)%Z
            && (PyStr.rfind "." nm <? Z.of_nat (String.length nm) - 1)%Z).
  - apply take_drop.
  - apply append_nil_r.
Qed.

(** X7.  The name of an entry is its stem followed by its suffix.  So an
    entry that passes the test of line 19 is called [stem + ".txt"] with a
    non-empty stem: the angle of line 20 is read from the name without its
    last four characters, and an entry called just ".txt" is not
    processed. *)
Theorem txt_entry_name (file : path) :
  suffix file = ".txt" ->
  name file = stem file ++ ".txt" /\ stem file <> "".
Proof.
  unfold suffix, stem. intros Hs. split.
  - rewrite <- Hs. symmetry. apply stem_suffix.
  - intros He. pose proof (stem_suffix (name file)) as E.
    rewrite He, Hs in E. cbn [append] in E.
    rewrite <- E in Hs. vm_compute in Hs. discriminate.
Qed.

Lemma txt_entry_name_witness :
  name ["P3HT"; "carbon"; "45deg_scan.txt"]
  = stem ["P3HT"; "carbon"; "45deg_scan.txt"] ++ ".txt".
Proof.
  exact (proj1 (txt_entry_name ["P3HT"; "carbon"; "45deg_scan.txt"] eq_refl)).
Defined.

(** ** Where a run stops *)

Lemma molecule_names_app (t : node) (l1 l2 : list path) :
  molecule_names t (l1 ++ l2)
  = (molecule_names t l1 ++ molecule_names t l2)%list.
Proof. unfold molecule_names. now rewrite filter_app, map_app. Qed.

Lemma molecule_loop_app (l1 l2 : list string) (w : world) :
  molecule_loop (l1 ++ l2) w = (molecule_loop l1 ;;; molecule_loop l2) w.
Proof.
  revert w. induction l1 as [|m l1 IH]; intros w; [reflexivity |].
  cbn [app]. rewrite molecule_loop_cons. unfold bind.
  rewrite molecule_loop_cons. unfold bind.
  destruct (molecule_body m w) as [w1 [e|[]]]; [reflexivity |].
  rewrite IH. reflexivity.
Qed.

(** X8.  The run stops at the first root-level directory whose stem, an
    ordinary component (not "." or "..", which pathlib reads as [data_path]
    itself and as its parent), does not name a directory of the root.  With
    distinct root-level names and well-formed entries before it, the lines
    of the molecules listed before it are printed, FileNotFoundError
    (nothing has that name) or NotADirectoryError (a regular file has it)
    is raised, and nothing is printed for what the listing yields after
    it. *)
Theorem run_stops_at_dangling_stem
        (pre post : list (string * node)) (nm : string)
        (kids : list (string * node)) :
  let es := (pre ++ (nm, Dir kids) :: post)%list in
  NoDup (map fst es) ->
  Forall (fun e => is_dir_node (snd e) = true -> stem_of (fst e) = fst e) pre ->
  Forall (fun e => forall k,
              snd e = Dir k -> NoDup (map fst k) /\ ~ In "" (map fst k)) pre ->
  nm <> "Energy Calibration" ->
  is_ordinary (stem_of nm) = true ->
  (forall k, lookup (stem_of nm) es <> Some (Dir k)) ->
  run (Dir es)
  = (tree_lines pre,
     inl (match lookup (stem_of nm) es with
          | Some _ => NotADirectoryError
          | None => FileNotFoundError
          end)).
Proof.
  intros es Hnd Hst Hk Hne _ Hdang.
  assert (Hincl : incl pre es) by (intros x Hx; apply in_or_app; now left).
  assert (Ees : es = (pre ++ (nm, Dir kids) :: post)%list) by reflexivity.
  clearbody es.
  assert (Hnames :
            molecule_names (Dir es)
              (map (fun e => joinpath data_path (fst e)) es)
            = (map fst (filter is_molecule_entry pre)
               ++ stem_of nm
                  :: molecule_names (Dir es)
                       (map (fun e => joinpath data_path (fst e)) post))%list).
  { rewrite Ees at 2. rewrite map_app, molecule_names_app.
    rewrite (molecule_names_root es pre Hnd Hincl Hst). f_equal.
    unfold molecule_names. cbn [map filter fst].
    change (joinpath data_path nm)
      with (joinpath data_path (fst (nm, Dir kids))) at 1.
    rewrite (is_dir_b_root es (nm, Dir kids) Hnd)
      by (rewrite Ees; apply in_elt).
    cbn [fst]. rewrite name_joinpath. cbn [snd is_dir_node andb].
    apply String.eqb_neq in Hne. rewrite Hne. cbn [negb map].
    now rewrite stem_joinpath. }
  assert (Hs : script (mkWorld (Dir es) [])
               = (mkWorld (Dir es) (tree_lines pre),
                  inl (match lookup (stem_of nm) es with
                       | Some _ => NotADirectoryError
                       | None => FileNotFoundError
                       end))).
  { rewrite script_run, Hnames, molecule_loop_app. unfold bind.
    rewrite (molecule_loop_root es pre Hnd Hincl Hk
                                (mkWorld (Dir es) []) eq_refl).
    rewrite molecule_loop_cons. unfold bind.
    rewrite molecule_body_no_directory.
    - rewrite resolve_joinpath. cbn [fs stdout resolve data_path app].
      reflexivity.
    - intros k. rewrite resolve_joinpath. cbn [fs resolve data_path].
      apply Hdang. }
  rewrite run_Dir, Hs. reflexivity.
Qed.

Lemma run_stops_at_dangling_stem_witness :
  run (Dir [ ("Y6", Dir [ ("carbon", Dir [ ("30deg.txt", File) ]) ]);
             ("P3HT.v2", Dir [ ("carbon", Dir [ ("45deg.txt", File) ]) ]);
             ("ITIC", Dir [ ("carbon", Dir [ ("90deg.txt", File) ]) ]) ])
  = ([ "Loading data for Y6 at the C-K at 30 degrees" ],
     inl FileNotFoundError).
Proof.
  refine (run_stops_at_dangling_stem
            [ ("Y6", Dir [ ("carbon", Dir [ ("30deg.txt", File) ]) ]) ]
            [ ("ITIC", Dir [ ("carbon", Dir [ ("90deg.txt", File) ]) ]) ]
            "P3HT.v2" [ ("carbon", Dir [ ("45deg.txt", File) ]) ]
            _ _ _ _ eq_refl _).
  - repeat constructor; simpl; intuition discriminate.
  - repeat constructor.
  - apply Forall_forall. intros e He k Hk. simpl in He.
    repeat (destruct He as [<-|He]); try contradiction.
    cbn in Hk. injection Hk as <-.
    split; [repeat constructor; simpl; intuition discriminate
           | simpl; intuition discriminate].
  - discriminate.
  - intros k. vm_compute. discriminate.
Defined.
